(** * lib/netutil/tls.go: server TLS configuration

    A shallow embedding of [collectCipherSuites] and [GetServerTLSConfig]
    (with the [GetCertificate] closure it installs), and the properties of
    the cipher-suite resolver, of the configuration builder and of the
    certificate cache that the closure keeps.

    Go values are modelled as follows.
    - [uint64] and [uint16] are [Z]; the one arithmetic operation of the
      file, [fasttime.UnixTimestamp() + 1], is written with its wrap-around.
    - [string] and [[]byte] are [string].
    - A function returning [(T, error)] returns a pair whose second
      component is [option error]; [None] is Go's [nil] error.
    - The variables captured by the closure ([certDeadline], [c], [err],
      [cert]) are the fields of a record that every invocation receives and
      returns.  [cert] is a pointer: it is [nil] or the address of the
      captured variable [c], and what it points to is read from the record.
    - What the collaborators outside the file would answer at one moment
      (clock, certificate loader, file-or-HTTP reader) is a record [World];
      the calls really made are returned as a list of [event]s. *)

From Stdlib Require Import ZArith String Ascii List Lia Bool.
From stdpp Require Import base strings gmap list.

Local Open Scope string_scope.
Local Open Scope Z_scope.

(** ** Platform types (crypto/tls, crypto/x509) *)

Module tls.

(** [tls.CipherSuite]: only the fields the resolver reads. *)
Record CipherSuite := mkCipherSuite { Name : string; ID : Z }.

(** [tls.Certificate]: the parsed chain and its private key. *)
Record Certificate := mkCertificate {
  Chain : list string;
  PrivateKey : string
}.

(** The zero value [tls.Certificate{}], which [tls.LoadX509KeyPair]
    returns next to a non-nil error. *)
Definition zero : Certificate := mkCertificate [] "".

Inductive ClientAuthType :=
| NoClientCert
| RequestClientCert
| RequireAnyClientCert
| VerifyClientCertIfGiven
| RequireAndVerifyClientCert.

Definition VersionTLS12 : Z := 771. (* 0x0303 *)

End tls.

(** [x509.CertPool]: the certificates it holds, in insertion order. *)
Definition CertPool := list string.

(** ** Errors

    One constructor per [fmt.Errorf] of the file, holding the arguments of
    the format; [cause] is the error wrapped with [%w].  [ErrExternal] is an
    error produced outside the file (by the loader or the reader).
    - [ErrUnsupportedCipherSuite]: got unsupported cipher suite name: %s
    - [ErrLoadTLSCert]: cannot load TLS cert from certFile=%q, keyFile=%q: %w
    - [ErrUseCipherSuites]: cannot use TLS cipher suites from tlsCipherSuites=%q: %w
    - [ErrReadCAFile]: cannot read tlsCAFile=%q: %w
    - [ErrParseCAFile]: cannot parse data for tlsCAFile=%q: %s *)

Inductive error :=
| ErrExternal (msg : string)
| ErrUnsupportedCipherSuite (gotSuite : string)
| ErrLoadTLSCert (certFile keyFile : string) (cause : error)
| ErrUseCipherSuites (tlsCipherSuites : list string) (cause : error)
| ErrReadCAFile (tlsCAFile : string) (cause : error)
| ErrParseCAFile (tlsCAFile : string) (caPEM : string).

(** ** Effects *)

(** Calls made to the collaborators that touch the disk or the network. *)
Inductive event :=
| CallLoadX509KeyPair (certFile keyFile : string)
| CallReadFileOrHTTP (path : string).

(** What the collaborators answer during one call of the builder or one
    invocation of the closure.  The clock is read twice by an invocation
    that reloads: [now] is the reading compared with the deadline, [now']
    the reading from which the new deadline is computed. *)
Record World := mkWorld {
  now : Z;
  now' : Z;
  LoadX509KeyPair : string -> string -> tls.Certificate * option error;
  ReadFileOrHTTP : string -> string * option error
}.

(** [x + y] on [uint64]. *)
Definition uint64_add (x y : Z) : Z := (x + y) mod 2 ^ 64.

(** A clock reading is a number of seconds since the epoch held in a
    [uint64], below the largest value of the type. *)
Definition timestamp (t : Z) : Prop := 0 <= t < 2 ^ 64 - 1.

(** ** The certificate cache of the closure *)

(** A [*tls.Certificate] of this file: [nil], or the address of the
    captured variable [c] (the only certificate whose address is taken). *)
Inductive pointer := nil | addr_c.

(** The variables captured by the [GetCertificate] closure.  [certLock]
    serialises the invocations and has no other content: one invocation is
    one step. *)
Record Cache := mkCache {
  tlsCertFile : string;
  tlsKeyFile : string;
  certDeadline : Z;
  c : tls.Certificate;
  err : option error;
  cert : pointer
}.

(** What a pointer handed out by the closure refers to in a given state. *)
Definition deref (s : Cache) (p : pointer) : option tls.Certificate :=
  match p with
  | nil => None
  | addr_c => Some (c s)
  end.

(** Lines 31-43.  [c, err = tls.LoadX509KeyPair(...)] is an assignment to
    the two captured variables (not a declaration): both are overwritten
    with what the loader returns, also when it fails.  Returns the two
    results, the captured variables afterwards and the calls made. *)
Definition GetCertificate (w : World) (s : Cache)
  : (pointer * option error) * Cache * list event :=
  if certDeadline s <? now w then
    let '(c1, err1) := LoadX509KeyPair w (tlsCertFile s) (tlsKeyFile s) in
    let calls := [CallLoadX509KeyPair (tlsCertFile s) (tlsKeyFile s)] in
    match err1 with
    | Some e =>
        ((nil, Some (ErrLoadTLSCert (tlsCertFile s) (tlsKeyFile s) e)),
         mkCache (tlsCertFile s) (tlsKeyFile s) (certDeadline s) c1 err1 (cert s),
         calls)
    | None =>
        ((addr_c, None),
         mkCache (tlsCertFile s) (tlsKeyFile s) (uint64_add (now' w) 1) c1 err1 addr_c,
         calls)
    end
  else ((cert s, None), s, []).

(** The captured variables after one invocation. *)
Definition step (s : Cache) (w : World) : Cache := (GetCertificate w s).1.2.

(** The captured variables after a sequence of invocations. *)
Definition run (s : Cache) (ws : list World) : Cache := foldl step s ws.

(** Whether the invocation in [w] reloads the pair with success. *)
Definition reloads (s : Cache) (w : World) : bool :=
  (certDeadline s <? now w)
  && bool_decide ((LoadX509KeyPair w (tlsCertFile s) (tlsKeyFile s)).2 = None).

(** The clock reading taken by the last invocation of [ws] that reloaded
    the pair with success, starting from [last]. *)
Fixpoint lastLoadTime (last : option Z) (s : Cache) (ws : list World) : option Z :=
  match ws with
  | [] => last
  | w :: ws' =>
      lastLoadTime (if reloads s w then Some (now' w) else last) (step s w) ws'
  end.

(** What a sequence of invocations hands to the handshake layer: the two
    results of each invocation and the certificate that the returned pointer
    refers to when the invocation returns. *)
Fixpoint serve (s : Cache) (ws : list World)
  : list ((pointer * option error) * option tls.Certificate) :=
  match ws with
  | [] => []
  | w :: ws' =>
      let r := GetCertificate w s in
      (r.1.1, deref r.1.2 r.1.1.1) :: serve r.1.2 ws'
  end.

(** ** The resolver and the builder *)

(** [tls.Config]: the fields the builder sets.  [GetCertificate] is a
    closure: the field holds its captured variables. *)
Record Config := mkConfig {
  MinVersion : Z;
  PreferServerCipherSuites : bool;
  GetCertificate_closure : Cache;
  CipherSuites : list Z;
  ClientAuth : tls.ClientAuthType;
  ClientCAs : option CertPool
}.

Section Model.

(** [strings.ToLower]. *)
Variable ToLower : string -> string.
(** [tls.CipherSuites()], the platform's table. *)
Variable supportedCipherSuites : list tls.CipherSuite.
(** The certificates that the platform's PEM decoder finds in a bundle. *)
Variable certificatesOfPEM : string -> list string.

(** Lines 66-69: the map from lower-cased name to identifier; a later
    suite overwrites an earlier one with the same lower-cased name. *)
Definition supportedCipherSuitesMap : gmap string Z :=
  foldl (fun m scf => <[ToLower (tls.Name scf) := tls.ID scf]> m)
        ∅ supportedCipherSuites.

(** Lines 70-76: the loop over the requested names; [cipherSuites] is the
    slice built so far, and [nil] is returned with the error. *)
Fixpoint collectLoop (m : gmap string Z) (cipherSuites : list Z)
         (definedCipherSuites : list string) : list Z * option error :=
  match definedCipherSuites with
  | [] => (cipherSuites, None)
  | gotSuite :: rest =>
      match m !! ToLower gotSuite with
      | None => ([], Some (ErrUnsupportedCipherSuite gotSuite))
      | Some id => collectLoop m (cipherSuites ++ [id])%list rest
      end
  end.

Definition collectCipherSuites (definedCipherSuites : list string)
  : list Z * option error :=
  collectLoop supportedCipherSuitesMap [] definedCipherSuites.

(** A name is recognised when a suite of the platform has the same
    lower-cased name. *)
Definition recognised (name : string) : Prop :=
  exists scf, scf ∈ supportedCipherSuites
              /\ ToLower (tls.Name scf) = ToLower name.

(** [id] is the identifier of a suite of the platform that matches [name]. *)
Definition identifies (name : string) (id : Z) : Prop :=
  exists scf, scf ∈ supportedCipherSuites
              /\ ToLower (tls.Name scf) = ToLower name /\ tls.ID scf = id.

(** [AppendCertsFromPEM] of [x509.CertPool]: appends the certificates found
    and reports whether there was one. *)
Definition AppendCertsFromPEM (cp : CertPool) (pemCerts : string) : CertPool * bool :=
  ((cp ++ certificatesOfPEM pemCerts)%list,
   match certificatesOfPEM pemCerts with [] => false | _ :: _ => true end).

(** Lines 46-58, on the configuration [cfg] of lines 28-45. *)
Definition withClientCAs (w : World) (tlsCAFile : string) (cfg : Config)
  : option Config * option error * list event :=
  if decide (tlsCAFile = "") then (Some cfg, None, [])
  else
    let '(caPEM, err) := ReadFileOrHTTP w tlsCAFile in
    let calls := [CallReadFileOrHTTP tlsCAFile] in
    match err with
    | Some e => (None, Some (ErrReadCAFile tlsCAFile e), calls)
    | None =>
        let '(cp, ok) := AppendCertsFromPEM [] caPEM in
        if ok then
          (Some (mkConfig (MinVersion cfg) (PreferServerCipherSuites cfg)
                          (GetCertificate_closure cfg) (CipherSuites cfg)
                          tls.RequireAndVerifyClientCert (Some cp)),
           None, calls)
        else (None, Some (ErrParseCAFile tlsCAFile caPEM), calls)
    end.

(** Lines 15-60.  Returns the configuration (or [nil]), the error (or
    [nil]) and the calls made. *)
Definition GetServerTLSConfig (w : World) (tlsCAFile tlsCertFile tlsKeyFile : string)
           (tlsCipherSuites : list string)
  : option Config * option error * list event :=
  let '(c0, err0) := LoadX509KeyPair w tlsCertFile tlsKeyFile in
  let loaded := [CallLoadX509KeyPair tlsCertFile tlsKeyFile] in
  match err0 with
  | Some e => (None, Some (ErrLoadTLSCert tlsCertFile tlsKeyFile e), loaded)
  | None =>
      let '(cipherSuites, err1) := collectCipherSuites tlsCipherSuites in
      match err1 with
      | Some e => (None, Some (ErrUseCipherSuites tlsCipherSuites e), loaded)
      | None =>
          let cfg :=
            mkConfig tls.VersionTLS12 true
                     (mkCache tlsCertFile tlsKeyFile 0 c0 err1 addr_c)
                     cipherSuites tls.NoClientCert None in
          let '(r, calls) := withClientCAs w tlsCAFile cfg in
          (r, (loaded ++ calls)%list)
      end
  end.

End Model.

(** ** Sample platform and worlds, used by the examples *)

(** [strings.ToLower] on ASCII text. *)
Definition lowerASCII (a : ascii) : ascii :=
  let n := nat_of_ascii a in
  if ((65 <=? n) && (n <=? 90))%nat then ascii_of_nat (n + 32) else a.

Fixpoint toLowerASCII (s : string) : string :=
  match s with
  | EmptyString => EmptyString
  | String a rest => String (lowerASCII a) (toLowerASCII rest)
  end.

(** Some entries of [tls.CipherSuites()]. *)
Definition sampleCipherSuites : list tls.CipherSuite :=
  [ tls.mkCipherSuite "TLS_AES_128_GCM_SHA256" 4865;
    tls.mkCipherSuite "TLS_AES_256_GCM_SHA384" 4866;
    tls.mkCipherSuite "TLS_CHACHA20_POLY1305_SHA256" 4867;
    tls.mkCipherSuite "TLS_ECDHE_ECDSA_WITH_AES_128_GCM_SHA256" 49195;
    tls.mkCipherSuite "TLS_ECDHE_RSA_WITH_AES_128_GCM_SHA256" 49199 ].

(** A PEM decoder that knows one bundle. *)
Definition samplePEM (pemCerts : string) : list string :=
  if decide (pemCerts = "bundle") then ["ca-root"; "ca-intermediate"] else [].

Definition certA : tls.Certificate := tls.mkCertificate ["leaf-A"] "key-A".
Definition certB : tls.Certificate := tls.mkCertificate ["leaf-B"] "key-B".

(** The loader when [server.crt] and [server.key] hold the pair [pair]. *)
Definition loaderWith (pair : tls.Certificate) (certFile keyFile : string)
  : tls.Certificate * option error :=
  if decide (certFile = "server.crt" /\ keyFile = "server.key")
  then (pair, None)
  else (tls.zero, Some (ErrExternal "open: no such file or directory")).

(** The loader when the pair on disk cannot be parsed. *)
Definition loaderBroken (certFile keyFile : string)
  : tls.Certificate * option error :=
  (tls.zero, Some (ErrExternal "tls: failed to find any PEM data in certificate input")).

(** The reader when [ca.pem] holds the bundle that [samplePEM] decodes. *)
Definition sampleReader (path : string) : string * option error :=
  if decide (path = "ca.pem") then ("bundle", None)
  else if decide (path = "empty.pem") then ("", None)
  else ("", Some (ErrExternal "open: no such file or directory")).

(** The world at second [t] with the given loader. *)
Definition worldAt (t : Z) (loader : string -> string -> tls.Certificate * option error)
  : World :=
  mkWorld t t loader sampleReader.

(** The captured variables right after a build that loaded [certA]. *)
Definition cacheA : Cache := mkCache "server.crt" "server.key" 0 certA None addr_c.

(** ** Sequences of invocations *)

(** The calls made by a sequence of invocations, in order. *)
Fixpoint callsOf (s : Cache) (ws : list World) : list event :=
  match ws with
  | [] => []
  | w :: ws' => ((GetCertificate w s).2 ++ callsOf (step s w) ws')%list
  end.

(** The clock is never set back: the reading that each invocation compares
    with the deadline is at least [since] and at least that of the
    invocation before. *)
Fixpoint clockNeverBack (since : Z) (ws : list World) : Prop :=
  match ws with
  | [] => True
  | w :: ws' => since <= now w /\ clockNeverBack (now w) ws'
  end.

(** The clock reading and the pair of the last invocation of [ws] that
    reloaded the pair with success, starting from [last]. *)
Fixpoint lastReload (last : option (Z * tls.Certificate)) (s : Cache)
         (ws : list World) : option (Z * tls.Certificate) :=
  match ws with
  | [] => last
  | w :: ws' =>
      lastReload
        (if reloads s w
         then Some (now' w, (LoadX509KeyPair w (tlsCertFile s) (tlsKeyFile s)).1)
         else last)
        (step s w) ws'
  end.

(** A platform table in which two suites have the same lower-cased name. *)
Definition shadowedCipherSuites : list tls.CipherSuite :=
  [ tls.mkCipherSuite "TLS_FIRST" 1;
    tls.mkCipherSuite "Tls_Twice" 2;
    tls.mkCipherSuite "TLS_TWICE" 3;
    tls.mkCipherSuite "TLS_LAST" 4 ].

(** * Properties *)

(** ** The cipher-suite resolver *)

Section ResolverProperties.

Variable ToLower : string -> string.
Variable supportedCipherSuites : list tls.CipherSuite.

Abbreviation suitesMap := (supportedCipherSuitesMap ToLower supportedCipherSuites).
Abbreviation recognised' := (recognised ToLower supportedCipherSuites).
Abbreviation identifies' := (identifies ToLower supportedCipherSuites).

(** A key found in a map filled by the loop of lines 67-69 was there
    before the loop or is the lower-cased name of one of the suites. *)
Lemma fill_lookup_Some (suites : list tls.CipherSuite) (m0 : gmap string Z) k id :
  foldl (fun m scf => <[ToLower (tls.Name scf) := tls.ID scf]> m) m0 suites !! k = Some id ->
  m0 !! k = Some id
  \/ exists scf, scf ∈ suites /\ ToLower (tls.Name scf) = k /\ tls.ID scf = id.
Proof.
  revert m0. induction suites as [|scf suites IH]; intros m0 H; simpl in H.
  - now left.
  - apply IH in H as [H | (scf' & Hin & Hk & Hid)].
    + destruct (decide (ToLower (tls.Name scf) = k)) as [Heq | Hne].
      * subst k. rewrite lookup_insert_eq in H. injection H as <-.
        right. exists scf. split; [apply list_elem_of_here | easy].
      * rewrite lookup_insert_ne in H by exact Hne. now left.
    + right. exists scf'. split; [now apply list_elem_of_further | easy].
Qed.

(** A key is absent after the loop exactly when it was absent before and
    no suite has it as lower-cased name. *)
Lemma fill_lookup_None (suites : list tls.CipherSuite) (m0 : gmap string Z) k :
  foldl (fun m scf => <[ToLower (tls.Name scf) := tls.ID scf]> m) m0 suites !! k = None <->
  m0 !! k = None /\ forall scf, scf ∈ suites -> ToLower (tls.Name scf) <> k.
Proof.
  revert m0. induction suites as [|scf suites IH]; intros m0; simpl.
  - split; [intros H; split; [exact H | intros scf Hin; inversion Hin] | now intros [H _]].
  - rewrite IH. split.
    + intros [Hins Hrest].
      destruct (decide (ToLower (tls.Name scf) = k)) as [Heq | Hne].
      * subst k. now rewrite lookup_insert_eq in Hins.
      * rewrite lookup_insert_ne in Hins by exact Hne. split; [exact Hins |].
        intros scf' Hin. apply elem_of_cons in Hin as [-> | Hin]; auto.
    + intros [Hm0 Hall]. split.
      * rewrite lookup_insert_ne; [exact Hm0 |]. apply Hall, list_elem_of_here.
      * intros scf' Hin. apply Hall. now apply list_elem_of_further.
Qed.

Lemma suitesMap_Some name id :
  suitesMap !! ToLower name = Some id -> identifies' name id.
Proof.
  intros H. apply fill_lookup_Some in H as [H | H]; [| exact H].
  now rewrite lookup_empty in H.
Qed.

Lemma suitesMap_None name :
  suitesMap !! ToLower name = None <-> ~ recognised' name.
Proof.
  unfold supportedCipherSuitesMap. rewrite fill_lookup_None. split.
  - intros [_ Hall] (scf & Hin & Heq). exact (Hall scf Hin Heq).
  - intros Hnot. split; [apply lookup_empty |].
    intros scf Hin Heq. apply Hnot. now exists scf.
Qed.

Lemma recognised_lookup name :
  recognised' name <-> is_Some (suitesMap !! ToLower name).
Proof.
  destruct (suitesMap !! ToLower name) as [id|] eqn:E.
  - split; [intros _; now exists id |].
    intros _. destruct (suitesMap_Some _ _ E) as (scf & Hin & Heq & _). now exists scf.
  - apply suitesMap_None in E. split; [tauto | intros [x Hx]; discriminate].
Qed.

Lemma recognised_or_not name : recognised' name \/ ~ recognised' name.
Proof.
  destruct (suitesMap !! ToLower name) as [id|] eqn:E.
  - left. apply recognised_lookup. rewrite E. now exists id.
  - right. now apply suitesMap_None.
Qed.

(** The loop appends one identifier per name when every name is in the map. *)
Lemma collectLoop_found (m : gmap string Z) names acc :
  Forall (fun name => is_Some (m !! ToLower name)) names ->
  exists ids,
    collectLoop ToLower m acc names = ((acc ++ ids)%list, None)
    /\ Forall2 (fun name id => m !! ToLower name = Some id) names ids.
Proof.
  intros H. revert acc. induction H as [|name names [id Hid] _ IH]; intros acc.
  - exists []. simpl. rewrite app_nil_r. split; [reflexivity | constructor].
  - destruct (IH (acc ++ [id])%list) as (ids & Hrun & Hall).
    exists (id :: ids). simpl. rewrite Hid, Hrun, <- app_assoc. simpl.
    split; [reflexivity | now constructor].
Qed.

(** The loop stops at the first name that is not in the map. *)
Lemma collectLoop_missing (m : gmap string Z) before bad after acc :
  Forall (fun name => is_Some (m !! ToLower name)) before ->
  m !! ToLower bad = None ->
  collectLoop ToLower m acc (before ++ bad :: after)
  = ([], Some (ErrUnsupportedCipherSuite bad)).
Proof.
  intros H Hbad. revert acc. induction H as [|name names [id Hid] _ IH]; intros acc; simpl.
  - now rewrite Hbad.
  - rewrite Hid. apply IH.
Qed.

(** A list with an unrecognised name splits at the first such name. *)
Lemma first_unrecognised names :
  Exists (fun name => ~ recognised' name) names ->
  exists before bad after,
    names = (before ++ bad :: after)%list
    /\ Forall recognised' before /\ ~ recognised' bad.
Proof.
  induction names as [|name names IH]; intros H.
  - inversion H.
  - destruct (recognised_or_not name) as [Hyes | Hno].
    + apply Exists_cons in H as [H | H]; [contradiction |].
      destruct (IH H) as (before & bad & after & -> & Hbefore & Hbad).
      exists (name :: before), bad, after. repeat split; [now constructor | exact Hbad].
    + exists [], name, names. repeat split; [constructor | exact Hno].
Qed.

(** C5. When every requested name matches a suite of the platform under
    case-insensitive comparison, the resolver returns no error and one
    identifier per name, each the identifier of a matching suite, in the
    order of the request and with its repetitions; for the empty request it
    returns the empty (nil) sequence and no error. *)
Theorem collectCipherSuites_recognised (names : list string)
  (Hall : Forall recognised' names) :
  (exists ids,
      collectCipherSuites ToLower supportedCipherSuites names = (ids, None)
      /\ Forall2 identifies' names ids)
  /\ collectCipherSuites ToLower supportedCipherSuites [] = ([], None).
Proof.
  split; [| reflexivity].
  assert (Hfound : Forall (fun name => is_Some (suitesMap !! ToLower name)) names).
  { eapply Forall_impl; [exact Hall |]. intros name. apply recognised_lookup. }
  destruct (collectLoop_found suitesMap names [] Hfound) as (ids & Hrun & Hids).
  exists ids. split; [exact Hrun |].
  eapply Forall2_impl; [exact Hids |]. intros name id. apply suitesMap_Some.
Qed.

(** C6. When some requested name matches no suite of the platform under
    case-insensitive comparison, the resolver returns the error
    "got unsupported cipher suite name" carrying the first such name of the
    request, and the nil sequence of identifiers. *)
Theorem collectCipherSuites_unrecognised (names : list string)
  (Hsome : Exists (fun name => ~ recognised' name) names) :
  exists before bad after,
    names = (before ++ bad :: after)%list
    /\ Forall recognised' before
    /\ ~ recognised' bad
    /\ collectCipherSuites ToLower supportedCipherSuites names
       = ([], Some (ErrUnsupportedCipherSuite bad)).
Proof.
  destruct (first_unrecognised names Hsome) as (before & bad & after & -> & Hbefore & Hbad).
  exists before, bad, after. repeat split; [exact Hbefore | exact Hbad |].
  apply collectLoop_missing.
  - eapply Forall_impl; [exact Hbefore |]. intros name. apply recognised_lookup.
  - now apply suitesMap_None.
Qed.

End ResolverProperties.

(** ** The certificate cache *)

Section CacheProperties.

Implicit Types (s : Cache) (w : World) (ws : list World).

(** An invocation at or before the deadline touches nothing and hands out
    the cached pointer. *)
Lemma GetCertificate_fresh s w :
  now w <= certDeadline s ->
  GetCertificate w s = ((cert s, None), s, []).
Proof.
  intros H. unfold GetCertificate.
  destruct (certDeadline s <? now w) eqn:E; [apply Z.ltb_lt in E; lia | reflexivity].
Qed.

(** An invocation past the deadline whose load succeeds. *)
Lemma GetCertificate_reloaded s w c1 :
  certDeadline s < now w ->
  LoadX509KeyPair w (tlsCertFile s) (tlsKeyFile s) = (c1, None) ->
  GetCertificate w s
  = ((addr_c, None),
     mkCache (tlsCertFile s) (tlsKeyFile s) (uint64_add (now' w) 1) c1 None addr_c,
     [CallLoadX509KeyPair (tlsCertFile s) (tlsKeyFile s)]).
Proof.
  intros H Hload. unfold GetCertificate.
  apply Z.ltb_lt in H. now rewrite H, Hload.
Qed.

(** An invocation past the deadline whose load fails: the deadline and the
    pointer stay, the variables [c] and [err] receive what the loader
    returned. *)
Lemma GetCertificate_failed s w c1 e :
  certDeadline s < now w ->
  LoadX509KeyPair w (tlsCertFile s) (tlsKeyFile s) = (c1, Some e) ->
  GetCertificate w s
  = ((nil, Some (ErrLoadTLSCert (tlsCertFile s) (tlsKeyFile s) e)),
     mkCache (tlsCertFile s) (tlsKeyFile s) (certDeadline s) c1 (Some e) (cert s),
     [CallLoadX509KeyPair (tlsCertFile s) (tlsKeyFile s)]).
Proof.
  intros H Hload. unfold GetCertificate.
  apply Z.ltb_lt in H. now rewrite H, Hload.
Qed.

(** The file names are never reassigned. *)
Lemma step_files s w :
  tlsCertFile (step s w) = tlsCertFile s /\ tlsKeyFile (step s w) = tlsKeyFile s.
Proof.
  unfold step, GetCertificate.
  destruct (certDeadline s <? now w); [| easy].
  destruct (LoadX509KeyPair w _ _) as [c1 [e|]]; easy.
Qed.

(** The deadline after one invocation. *)
Lemma step_certDeadline s w :
  certDeadline (step s w)
  = if reloads s w then uint64_add (now' w) 1 else certDeadline s.
Proof.
  unfold step, reloads, GetCertificate.
  destruct (certDeadline s <? now w); [| reflexivity].
  destruct (LoadX509KeyPair w _ _) as [c1 [e|]]; reflexivity.
Qed.

(** The deadline after a sequence of invocations, with the wrap-around of
    [uint64] left in: it is the one before the sequence when no invocation
    reloaded, and else one more than the reading of the last reload. *)
Lemma run_certDeadline ws : forall s last,
  (forall t, last = Some t -> certDeadline s = uint64_add t 1) ->
  certDeadline (run s ws)
  = match lastLoadTime last s ws with
    | Some t => uint64_add t 1
    | None => certDeadline s
    end.
Proof.
  induction ws as [|w ws IH]; intros s last Hlast; simpl.
  - destruct last as [t|]; [now apply Hlast | reflexivity].
  - fold (run (step s w) ws). rewrite (IH (step s w) (if reloads s w then Some (now' w) else last)).
    + destruct (lastLoadTime _ _ ws) as [t|] eqn:E; [reflexivity |].
      rewrite step_certDeadline. destruct (reloads s w) eqn:Hr; [| reflexivity].
      exfalso. clear -E. revert E. generalize (step s w). generalize (now' w).
      induction ws as [|w' ws IHws]; intros t0 s0; simpl; [discriminate |].
      destruct (reloads s0 w'); apply IHws.
    + intros t. rewrite step_certDeadline.
      destruct (reloads s w); [now intros [= <-] | apply Hlast].
Qed.

Lemma lastLoadTime_timestamp ws : forall s last t,
  Forall (fun w => timestamp (now' w)) ws ->
  (forall t0, last = Some t0 -> timestamp t0) ->
  lastLoadTime last s ws = Some t -> timestamp t.
Proof.
  induction ws as [|w ws IH]; intros s last t Hall Hlast; simpl.
  - apply Hlast.
  - apply Forall_cons in Hall as [Hw Hall]. apply IH; [exact Hall |].
    intros t0. destruct (reloads s w); [intros [= <-]; exact Hw | apply Hlast].
Qed.

Lemma uint64_add_timestamp t : timestamp t -> uint64_add t 1 = t + 1.
Proof. unfold timestamp, uint64_add. intros H. apply Z.mod_small. lia. Qed.

End CacheProperties.

(** C3. When an invocation at second [t] hands out a certificate pointer,
    a second invocation within the same second hands out the same pointer,
    makes no call to the loader and leaves the cache as it was. *)
Theorem GetCertificate_same_second (s s1 : Cache) (w1 w2 : World) (t : Z)
  (p : pointer) (calls : list event)
  (Ht : timestamp t)
  (Hfirst : now w1 = t /\ now' w1 = t)
  (Hsecond : now w2 = t)
  (Hcall : GetCertificate w1 s = ((p, None), s1, calls)) :
  GetCertificate w2 s1 = ((p, None), s1, [])
  /\ deref (step s1 w2) p = deref s1 p.
Proof.
  destruct Hfirst as [Hnow Hnow'].
  assert (Hgoal : GetCertificate w2 s1 = ((p, None), s1, [])).
  { unfold GetCertificate in Hcall.
    destruct (certDeadline s <? now w1) eqn:E.
    - destruct (LoadX509KeyPair w1 _ _) as [c1 [e|]]; [discriminate |].
      injection Hcall as <- <- _.
      rewrite GetCertificate_fresh; [reflexivity |].
      simpl. rewrite Hnow', Hsecond, uint64_add_timestamp by exact Ht. lia.
    - injection Hcall as <- <- _.
      apply GetCertificate_fresh. apply Z.ltb_ge in E. lia. }
  split; [exact Hgoal |]. unfold step. now rewrite Hgoal.
Qed.

(** C8. When the clock is past the cached deadline and the files on disk
    hold an updated pair, the next invocation calls the loader and hands
    out a pointer to the updated certificate. *)
Theorem GetCertificate_reload_after_deadline (s : Cache) (w : World)
  (updated : tls.Certificate)
  (Hpast : certDeadline s < now w)
  (Hdisk : LoadX509KeyPair w (tlsCertFile s) (tlsKeyFile s) = (updated, None)) :
  exists p s1,
    GetCertificate w s
    = ((p, None), s1, [CallLoadX509KeyPair (tlsCertFile s) (tlsKeyFile s)])
    /\ deref s1 p = Some updated.
Proof.
  exists addr_c. eexists. split.
  - exact (GetCertificate_reloaded s w updated Hpast Hdisk).
  - reflexivity.
Qed.

(** ** The builder *)

Section BuilderProperties.

Variable ToLower : string -> string.
Variable supportedCipherSuites : list tls.CipherSuite.
Variable certificatesOfPEM : string -> list string.

Abbreviation build :=
  (GetServerTLSConfig ToLower supportedCipherSuites certificatesOfPEM).
Abbreviation resolve := (collectCipherSuites ToLower supportedCipherSuites).

Implicit Types (w : World) (cfg : Config).

Lemma withClientCAs_disabled w cfg :
  withClientCAs certificatesOfPEM w "" cfg = (Some cfg, None, []).
Proof. reflexivity. Qed.

(** The outcomes of lines 46-58 when a CA file is given. *)
Lemma withClientCAs_enabled w tlsCAFile cfg :
  tlsCAFile <> "" ->
  withClientCAs certificatesOfPEM w tlsCAFile cfg
  = match ReadFileOrHTTP w tlsCAFile with
    | (_, Some e) => (None, Some (ErrReadCAFile tlsCAFile e), [CallReadFileOrHTTP tlsCAFile])
    | (caPEM, None) =>
        match certificatesOfPEM caPEM with
        | [] => (None, Some (ErrParseCAFile tlsCAFile caPEM), [CallReadFileOrHTTP tlsCAFile])
        | _ :: _ =>
            (Some (mkConfig (MinVersion cfg) (PreferServerCipherSuites cfg)
                            (GetCertificate_closure cfg) (CipherSuites cfg)
                            tls.RequireAndVerifyClientCert
                            (Some (certificatesOfPEM caPEM))),
             None, [CallReadFileOrHTTP tlsCAFile])
        end
    end.
Proof.
  intros Hne. unfold withClientCAs, AppendCertsFromPEM.
  destruct (decide (tlsCAFile = "")) as [Heq | _]; [contradiction |].
  destruct (ReadFileOrHTTP w tlsCAFile) as [caPEM [e|]]; [reflexivity |].
  destruct (certificatesOfPEM caPEM); reflexivity.
Qed.

Lemma build_load_failed w tlsCAFile certFile keyFile suites c0 e :
  LoadX509KeyPair w certFile keyFile = (c0, Some e) ->
  build w tlsCAFile certFile keyFile suites
  = (None, Some (ErrLoadTLSCert certFile keyFile e),
     [CallLoadX509KeyPair certFile keyFile]).
Proof. intros H. unfold GetServerTLSConfig. now rewrite H. Qed.

Lemma build_resolve_failed w tlsCAFile certFile keyFile suites c0 ids e :
  LoadX509KeyPair w certFile keyFile = (c0, None) ->
  resolve suites = (ids, Some e) ->
  build w tlsCAFile certFile keyFile suites
  = (None, Some (ErrUseCipherSuites suites e),
     [CallLoadX509KeyPair certFile keyFile]).
Proof. intros H1 H2. unfold GetServerTLSConfig. now rewrite H1, H2. Qed.

Lemma build_loaded w tlsCAFile certFile keyFile suites c0 ids :
  LoadX509KeyPair w certFile keyFile = (c0, None) ->
  resolve suites = (ids, None) ->
  build w tlsCAFile certFile keyFile suites
  = ((withClientCAs certificatesOfPEM w tlsCAFile
        (mkConfig tls.VersionTLS12 true
                  (mkCache certFile keyFile 0 c0 None addr_c)
                  ids tls.NoClientCert None)).1,
     CallLoadX509KeyPair certFile keyFile
     :: (withClientCAs certificatesOfPEM w tlsCAFile
           (mkConfig tls.VersionTLS12 true
                     (mkCache certFile keyFile 0 c0 None addr_c)
                     ids tls.NoClientCert None)).2).
Proof.
  intros H1 H2. unfold GetServerTLSConfig. rewrite H1, H2.
  now destruct (withClientCAs _ _ _ _) as [r calls].
Qed.

(** What a returned configuration holds. *)
Lemma build_returned w tlsCAFile certFile keyFile suites cfg calls :
  build w tlsCAFile certFile keyFile suites = (Some cfg, None, calls) ->
  exists c0 ids,
    LoadX509KeyPair w certFile keyFile = (c0, None)
    /\ resolve suites = (ids, None)
    /\ MinVersion cfg = tls.VersionTLS12
    /\ PreferServerCipherSuites cfg = true
    /\ CipherSuites cfg = ids
    /\ GetCertificate_closure cfg = mkCache certFile keyFile 0 c0 None addr_c.
Proof.
  intros H.
  destruct (LoadX509KeyPair w certFile keyFile) as [c0 [e|]] eqn:Hload.
  { rewrite (build_load_failed _ _ _ _ _ _ _ Hload) in H. discriminate. }
  destruct (resolve suites) as [ids [e|]] eqn:Hres.
  { rewrite (build_resolve_failed _ _ _ _ _ _ _ _ Hload Hres) in H. discriminate. }
  exists c0, ids. rewrite (build_loaded _ _ _ _ _ _ _ Hload Hres) in H.
  destruct (decide (tlsCAFile = "")) as [-> | Hne].
  - rewrite withClientCAs_disabled in H. simpl in H. injection H as <- _. easy.
  - rewrite (withClientCAs_enabled _ _ _ Hne) in H.
    destruct (ReadFileOrHTTP w tlsCAFile) as [caPEM [e|]]; [discriminate |].
    destruct (certificatesOfPEM caPEM); [discriminate |].
    simpl in H. injection H as <- _. easy.
Qed.

(** C7. With the pair loaded and the suites resolved, the client
    authentication of the outcome follows from the CA path alone: for the
    empty path the configuration is returned with verification disabled and
    no pool, and the reader is not called; for another path the builder
    fails with the path and the reader's error when the source cannot be
    read, fails with the path and the data when the data holds no
    certificate, and else returns a configuration that requires and verifies
    client certificates against the pool of the certificates decoded. *)
Theorem GetServerTLSConfig_client_auth (w : World)
  (tlsCAFile certFile keyFile : string) (suites : list string)
  (Hload : (LoadX509KeyPair w certFile keyFile).2 = None)
  (Hsuites : (resolve suites).2 = None) :
  (tlsCAFile = "" ->
   exists cfg,
     build w tlsCAFile certFile keyFile suites
     = (Some cfg, None, [CallLoadX509KeyPair certFile keyFile])
     /\ ClientAuth cfg = tls.NoClientCert /\ ClientCAs cfg = None)
  /\ (tlsCAFile <> "" ->
      (forall data e,
          ReadFileOrHTTP w tlsCAFile = (data, Some e) ->
          (build w tlsCAFile certFile keyFile suites).1
          = (None, Some (ErrReadCAFile tlsCAFile e)))
      /\ (forall caPEM,
             ReadFileOrHTTP w tlsCAFile = (caPEM, None) ->
             certificatesOfPEM caPEM = [] ->
             (build w tlsCAFile certFile keyFile suites).1
             = (None, Some (ErrParseCAFile tlsCAFile caPEM)))
      /\ (forall caPEM,
             ReadFileOrHTTP w tlsCAFile = (caPEM, None) ->
             certificatesOfPEM caPEM <> [] ->
             exists cfg,
               (build w tlsCAFile certFile keyFile suites).1 = (Some cfg, None)
               /\ ClientAuth cfg = tls.RequireAndVerifyClientCert
               /\ ClientCAs cfg = Some (certificatesOfPEM caPEM))).
Proof.
  destruct (LoadX509KeyPair w certFile keyFile) as [c0 err0] eqn:Hl.
  destruct (resolve suites) as [ids err1] eqn:Hr.
  simpl in Hload, Hsuites. subst err0 err1.
  rewrite (build_loaded _ _ _ _ _ _ _ Hl Hr). split.
  - intros ->. rewrite withClientCAs_disabled. eexists. split; [reflexivity | easy].
  - intros Hne. rewrite (withClientCAs_enabled _ _ _ Hne).
    split; [| split].
    + intros data e ->. reflexivity.
    + intros caPEM -> ->. reflexivity.
    + intros caPEM -> Hcerts.
      destruct (certificatesOfPEM caPEM) as [|x rest]; [contradiction |].
      eexists. split; [reflexivity | easy].
Qed.

(** C9. The first call of the builder is the load of the pair from the two
    paths given.  The builder returns a configuration and no error, or an
    error and no configuration.  The error is that of the first step that
    fails: of the load, holding both paths and the loader's error, after
    which nothing else is called; else of the resolver, holding the
    requested list and the resolver's error; else of the CA bundle.  A
    configuration is returned only when every step succeeded, and it then
    holds the minimum version, the server preference, the resolved suites
    and the cache with the pair loaded. *)
Theorem GetServerTLSConfig_error_or_config (w : World)
  (tlsCAFile certFile keyFile : string) (suites : list string) :
  exists r err calls,
    build w tlsCAFile certFile keyFile suites
    = (r, err, CallLoadX509KeyPair certFile keyFile :: calls)
    /\ ((exists cfg, r = Some cfg /\ err = None)
        \/ (r = None /\ exists e, err = Some e))
    /\ (forall c0 e,
           LoadX509KeyPair w certFile keyFile = (c0, Some e) ->
           r = None /\ err = Some (ErrLoadTLSCert certFile keyFile e) /\ calls = [])
    /\ (forall c0 ids e,
           LoadX509KeyPair w certFile keyFile = (c0, None) ->
           resolve suites = (ids, Some e) ->
           r = None /\ err = Some (ErrUseCipherSuites suites e) /\ calls = [])
    /\ (forall c0 ids,
           LoadX509KeyPair w certFile keyFile = (c0, None) ->
           resolve suites = (ids, None) ->
           tlsCAFile <> "" ->
           (forall data e,
               ReadFileOrHTTP w tlsCAFile = (data, Some e) ->
               r = None /\ err = Some (ErrReadCAFile tlsCAFile e))
           /\ (forall caPEM,
                  ReadFileOrHTTP w tlsCAFile = (caPEM, None) ->
                  certificatesOfPEM caPEM = [] ->
                  r = None /\ err = Some (ErrParseCAFile tlsCAFile caPEM)))
    /\ (forall cfg,
           r = Some cfg ->
           exists c0 ids,
             LoadX509KeyPair w certFile keyFile = (c0, None)
             /\ resolve suites = (ids, None)
             /\ MinVersion cfg = tls.VersionTLS12
             /\ PreferServerCipherSuites cfg = true
             /\ CipherSuites cfg = ids
             /\ GetCertificate_closure cfg = mkCache certFile keyFile 0 c0 None addr_c).
Proof.
  destruct (LoadX509KeyPair w certFile keyFile) as [c0 [e0|]] eqn:Hl.
  { rewrite (build_load_failed _ _ _ _ _ _ _ Hl).
    do 3 eexists. split; [reflexivity |].
    split; [right; eauto |]. split; [intros ? ? [= <- <-]; easy |].
    repeat split; try discriminate; intros; discriminate. }
  destruct (resolve suites) as [ids [e1|]] eqn:Hr.
  { rewrite (build_resolve_failed _ _ _ _ _ _ _ _ Hl Hr).
    do 3 eexists. split; [reflexivity |].
    split; [right; eauto |]. split; [discriminate |].
    split; [intros ? ? ? _ [= <- <-]; easy |].
    repeat split; try discriminate; intros; discriminate. }
  pose proof (build_returned w tlsCAFile certFile keyFile suites) as Hret.
  rewrite (build_loaded _ _ _ _ _ _ _ Hl Hr) in Hret |- *.
  destruct (withClientCAs _ _ _ _) as [[r err] calls] eqn:Hca. simpl in Hret |- *.
  exists r, err, calls. split; [reflexivity |].
  assert (Hshape : (exists cfg, r = Some cfg /\ err = None)
                   \/ (r = None /\ exists e, err = Some e)).
  { destruct (decide (tlsCAFile = "")) as [-> | Hne].
    - rewrite withClientCAs_disabled in Hca. injection Hca as <- <- _. left. eauto.
    - rewrite (withClientCAs_enabled _ _ _ Hne) in Hca.
      destruct (ReadFileOrHTTP w tlsCAFile) as [caPEM [e|]].
      + injection Hca as <- <- _. right. eauto.
      + destruct (certificatesOfPEM caPEM); injection Hca as <- <- _;
          [right | left]; eauto. }
  split; [exact Hshape |]. split; [discriminate |]. split; [discriminate |]. split.
  - intros ? ? _ _ Hne. rewrite (withClientCAs_enabled _ _ _ Hne) in Hca. split.
    + intros data e Hread. rewrite Hread in Hca. now injection Hca as <- <- _.
    + intros caPEM Hread Hnone. rewrite Hread, Hnone in Hca. now injection Hca as <- <- _.
  - intros cfg ->. destruct Hshape as [(cfg' & [= <-] & ->) | [[=] _]].
    destruct (Hret cfg _ eq_refl) as (c1 & ids1 & H1 & H2 & Hrest).
    rewrite Hl in H1. rewrite Hr in H2. now exists c1, ids1.
Qed.

(** C4. From a configuration that the builder returned, after any sequence
    of invocations whose clock readings are seconds since the epoch, the
    deadline is zero when no invocation has reloaded the pair, and else the
    reading taken by the last invocation that reloaded it plus one; and any
    invocation that reloads the pair leaves the deadline at its clock
    reading plus one. *)
Theorem certDeadline_zero_or_last_load_plus_one (w0 : World)
  (tlsCAFile certFile keyFile : string) (suites : list string)
  (cfg : Config) (calls : list event) (ws : list World)
  (Hbuild : build w0 tlsCAFile certFile keyFile suites = (Some cfg, None, calls))
  (Hclock : Forall (fun w => timestamp (now' w)) ws) :
  certDeadline (run (GetCertificate_closure cfg) ws)
  = match lastLoadTime None (GetCertificate_closure cfg) ws with
    | None => 0
    | Some t => t + 1
    end
  /\ (forall s w,
         reloads s w = true -> timestamp (now' w) ->
         certDeadline (step s w) = now' w + 1).
Proof.
  destruct (build_returned _ _ _ _ _ _ _ Hbuild) as (c0 & ids & _ & _ & _ & _ & _ & Hclosure).
  split.
  - rewrite (run_certDeadline ws _ None) by discriminate.
    destruct (lastLoadTime None _ ws) as [t|] eqn:E.
    + apply uint64_add_timestamp.
      apply (lastLoadTime_timestamp ws (GetCertificate_closure cfg) None t Hclock);
        [discriminate | exact E].
    + now rewrite Hclosure.
  - intros s w Hr Ht. rewrite step_certDeadline, Hr. now apply uint64_add_timestamp.
Qed.

(** C10. For a configuration that the builder returned, an invocation at
    any clock reading above zero finds the deadline (zero) passed and calls
    the loader, also within the second of the build; it fails with the
    loader's error when the files have become unreadable, and else hands out
    the pair just read.  The pair loaded by the builder has no influence on
    what any sequence of such invocations hands out. *)
Theorem GetCertificate_first_invocation_reloads (w0 : World)
  (tlsCAFile certFile keyFile : string) (suites : list string)
  (cfg : Config) (calls : list event) (w : World)
  (Hbuild : build w0 tlsCAFile certFile keyFile suites = (Some cfg, None, calls))
  (Hnow : 0 < now w) :
  certDeadline (GetCertificate_closure cfg) = 0
  /\ (GetCertificate w (GetCertificate_closure cfg)).2
     = [CallLoadX509KeyPair certFile keyFile]
  /\ (forall c1 e,
         LoadX509KeyPair w certFile keyFile = (c1, Some e) ->
         (GetCertificate w (GetCertificate_closure cfg)).1.1
         = (nil, Some (ErrLoadTLSCert certFile keyFile e)))
  /\ (forall c1,
         LoadX509KeyPair w certFile keyFile = (c1, None) ->
         (GetCertificate w (GetCertificate_closure cfg)).1.1 = (addr_c, None)
         /\ deref (step (GetCertificate_closure cfg) w) addr_c = Some c1)
  /\ (forall other ws,
         Forall (fun w' => 0 < now w') ws ->
         serve (mkCache certFile keyFile 0 other None addr_c) ws
         = serve (GetCertificate_closure cfg) ws).
Proof.
  destruct (build_returned _ _ _ _ _ _ _ Hbuild) as (c0 & ids & _ & _ & _ & _ & _ & ->).
  split; [reflexivity |].
  assert (Hlt : (0 <? now w) = true) by now apply Z.ltb_lt.
  split; [| split; [| split]].
  - unfold GetCertificate. simpl. rewrite Hlt.
    now destruct (LoadX509KeyPair w certFile keyFile) as [c1 [e|]].
  - intros c1 e Hl. unfold GetCertificate. simpl. now rewrite Hlt, Hl.
  - intros c1 Hl. unfold step, GetCertificate. simpl. now rewrite Hlt, Hl.
  - intros other [|w' ws] Hall; [reflexivity |].
    apply Forall_cons in Hall as [Hw' _]. apply Z.ltb_lt in Hw'.
    simpl. unfold GetCertificate. simpl. rewrite Hw'.
    now destruct (LoadX509KeyPair w' certFile keyFile) as [c1 [e|]].
Qed.

End BuilderProperties.

(** * The sample platform: evaluations *)

(** The scenario of the resolver's documentation: one known name resolves
    to one identifier, a list with an unknown name fails on that name. *)
Example collectCipherSuites_single :
  collectCipherSuites toLowerASCII sampleCipherSuites ["TLS_AES_128_GCM_SHA256"]
  = ([4865], None).
Proof. vm_compute. reflexivity. Qed.

Example collectCipherSuites_bogus :
  collectCipherSuites toLowerASCII sampleCipherSuites
    ["TLS_AES_128_GCM_SHA256"; "bogus_suite"]
  = ([], Some (ErrUnsupportedCipherSuite "bogus_suite")).
Proof. vm_compute. reflexivity. Qed.

Example collectCipherSuites_any_case :
  collectCipherSuites toLowerASCII sampleCipherSuites
    ["tls_chacha20_poly1305_sha256"; "TLS_AES_128_GCM_SHA256";
     "Tls_Chacha20_Poly1305_Sha256"]
  = ([4867; 4865; 4867], None).
Proof. vm_compute. reflexivity. Qed.

(** A build with the sample files: the cache of the returned configuration
    is [cacheA]. *)
Example GetServerTLSConfig_sample :
  GetServerTLSConfig toLowerASCII sampleCipherSuites samplePEM
    (worldAt 1 (loaderWith certA)) "" "server.crt" "server.key"
    ["TLS_AES_128_GCM_SHA256"]
  = (Some (mkConfig tls.VersionTLS12 true cacheA [4865] tls.NoClientCert None),
     None, [CallLoadX509KeyPair "server.crt" "server.key"]).
Proof. vm_compute. reflexivity. Qed.

Example GetServerTLSConfig_sample_mTLS :
  GetServerTLSConfig toLowerASCII sampleCipherSuites samplePEM
    (worldAt 1 (loaderWith certA)) "ca.pem" "server.crt" "server.key" []
  = (Some (mkConfig tls.VersionTLS12 true cacheA []
                    tls.RequireAndVerifyClientCert
                    (Some ["ca-root"; "ca-intermediate"])),
     None,
     [CallLoadX509KeyPair "server.crt" "server.key"; CallReadFileOrHTTP "ca.pem"]).
Proof. vm_compute. reflexivity. Qed.

Lemma sample_recognised name id :
  supportedCipherSuitesMap toLowerASCII sampleCipherSuites !! toLowerASCII name = Some id ->
  recognised toLowerASCII sampleCipherSuites name.
Proof. intros H. apply recognised_lookup. rewrite H. now exists id. Qed.

Lemma collectCipherSuites_recognised_witness :
  (exists ids,
      collectCipherSuites toLowerASCII sampleCipherSuites
        ["tls_aes_256_gcm_sha384"; "TLS_AES_128_GCM_SHA256"; "tls_aes_256_gcm_sha384"]
      = (ids, None)
      /\ Forall2 (identifies toLowerASCII sampleCipherSuites)
           ["tls_aes_256_gcm_sha384"; "TLS_AES_128_GCM_SHA256"; "tls_aes_256_gcm_sha384"]
           ids)
  /\ collectCipherSuites toLowerASCII sampleCipherSuites [] = ([], None).
Proof.
  apply (collectCipherSuites_recognised toLowerASCII sampleCipherSuites).
  repeat constructor.
  - apply (sample_recognised _ 4866). vm_compute. reflexivity.
  - apply (sample_recognised _ 4865). vm_compute. reflexivity.
  - apply (sample_recognised _ 4866). vm_compute. reflexivity.
Defined.

Lemma collectCipherSuites_unrecognised_witness :
  exists before bad after,
    ["TLS_AES_128_GCM_SHA256"; "bogus_suite"; "also_bogus"]
    = (before ++ bad :: after)%list
    /\ Forall (recognised toLowerASCII sampleCipherSuites) before
    /\ ~ recognised toLowerASCII sampleCipherSuites bad
    /\ collectCipherSuites toLowerASCII sampleCipherSuites
         ["TLS_AES_128_GCM_SHA256"; "bogus_suite"; "also_bogus"]
       = ([], Some (ErrUnsupportedCipherSuite bad)).
Proof.
  apply (collectCipherSuites_unrecognised toLowerASCII sampleCipherSuites).
  apply Exists_cons_tl, Exists_cons_hd.
  apply suitesMap_None. vm_compute. reflexivity.
Defined.

Lemma GetCertificate_same_second_witness :
  GetCertificate (worldAt 5 (loaderWith certB))
                 (step cacheA (worldAt 5 (loaderWith certA)))
  = ((addr_c, None), step cacheA (worldAt 5 (loaderWith certA)), [])
  /\ deref (step (step cacheA (worldAt 5 (loaderWith certA)))
                 (worldAt 5 (loaderWith certB))) addr_c
     = deref (step cacheA (worldAt 5 (loaderWith certA))) addr_c.
Proof.
  apply (GetCertificate_same_second
           cacheA (step cacheA (worldAt 5 (loaderWith certA)))
           (worldAt 5 (loaderWith certA)) (worldAt 5 (loaderWith certB)) 5
           addr_c [CallLoadX509KeyPair "server.crt" "server.key"]).
  - unfold timestamp. lia.
  - split; reflexivity.
  - reflexivity.
  - vm_compute. reflexivity.
Defined.

Lemma GetCertificate_reload_after_deadline_witness :
  exists p s1,
    GetCertificate (worldAt 7 (loaderWith certB))
                   (step cacheA (worldAt 5 (loaderWith certA)))
    = ((p, None), s1, [CallLoadX509KeyPair "server.crt" "server.key"])
    /\ deref s1 p = Some certB.
Proof.
  apply (GetCertificate_reload_after_deadline
           (step cacheA (worldAt 5 (loaderWith certA)))
           (worldAt 7 (loaderWith certB)) certB).
  - vm_compute. reflexivity.
  - vm_compute. reflexivity.
Defined.

Lemma GetServerTLSConfig_client_auth_witness :
  exists cfg,
    (GetServerTLSConfig toLowerASCII sampleCipherSuites samplePEM
       (worldAt 1 (loaderWith certA)) "ca.pem" "server.crt" "server.key"
       ["TLS_AES_128_GCM_SHA256"]).1
    = (Some cfg, None)
    /\ ClientAuth cfg = tls.RequireAndVerifyClientCert
    /\ ClientCAs cfg = Some ["ca-root"; "ca-intermediate"].
Proof.
  refine (proj2 (proj2 (proj2
    (GetServerTLSConfig_client_auth toLowerASCII sampleCipherSuites samplePEM
       (worldAt 1 (loaderWith certA)) "ca.pem" "server.crt" "server.key"
       ["TLS_AES_128_GCM_SHA256"] _ _) _)) "bundle" _ _).
  - vm_compute. reflexivity.
  - vm_compute. reflexivity.
  - discriminate.
  - vm_compute. reflexivity.
  - vm_compute. discriminate.
Defined.

Lemma certDeadline_zero_or_last_load_plus_one_witness :
  certDeadline
    (run cacheA [worldAt 5 (loaderWith certA); worldAt 5 (loaderWith certB);
                 worldAt 7 loaderBroken; worldAt 9 (loaderWith certB)])
  = 10.
Proof.
  exact (proj1
    (certDeadline_zero_or_last_load_plus_one
       toLowerASCII sampleCipherSuites samplePEM
       (worldAt 1 (loaderWith certA)) "" "server.crt" "server.key"
       ["TLS_AES_128_GCM_SHA256"]
       (mkConfig tls.VersionTLS12 true cacheA [4865] tls.NoClientCert None)
       [CallLoadX509KeyPair "server.crt" "server.key"]
       [worldAt 5 (loaderWith certA); worldAt 5 (loaderWith certB);
        worldAt 7 loaderBroken; worldAt 9 (loaderWith certB)]
       GetServerTLSConfig_sample
       ltac:(repeat constructor; unfold timestamp; simpl; lia))).
Defined.

Lemma GetCertificate_first_invocation_reloads_witness :
  (GetCertificate (worldAt 1 loaderBroken) cacheA).1.1
  = (nil,
     Some (ErrLoadTLSCert "server.crt" "server.key"
             (ErrExternal "tls: failed to find any PEM data in certificate input"))).
Proof.
  refine (proj1 (proj2 (proj2
    (GetCertificate_first_invocation_reloads
       toLowerASCII sampleCipherSuites samplePEM
       (worldAt 1 (loaderWith certA)) "" "server.crt" "server.key"
       ["TLS_AES_128_GCM_SHA256"]
       (mkConfig tls.VersionTLS12 true cacheA [4865] tls.NoClientCert None)
       [CallLoadX509KeyPair "server.crt" "server.key"]
       (worldAt 1 loaderBroken) GetServerTLSConfig_sample _))) tls.zero _ _).
  - simpl. lia.
  - reflexivity.
Defined.

(** * The captured variable [c] is overwritten in place

    The closure assigns the result of the loader to the captured variable
    [c] itself, and [cert] is the address of [c] from the build on.  Every
    pointer the closure hands out is therefore that one address, and a
    reload, successful or not, changes what all of them refer to. *)

(** Every pointer handed out without error is the address of [c]. *)
Lemma GetCertificate_hands_out_addr_c (s s1 : Cache) (w : World) p calls :
  cert s = addr_c ->
  GetCertificate w s = ((p, None), s1, calls) ->
  p = addr_c /\ cert s1 = addr_c.
Proof.
  intros Hcert H. unfold GetCertificate in H.
  destruct (certDeadline s <? now w).
  - destruct (LoadX509KeyPair w _ _) as [c1 [e|]]; [discriminate |].
    now injection H as <- <- _.
  - injection H as <- <- _. now rewrite Hcert.
Qed.

(** After a failed reload the cached pointer refers to what the loader
    returned next to its error. *)
Lemma GetCertificate_failed_overwrites (s : Cache) (w : World) c1 e :
  cert s = addr_c ->
  certDeadline s < now w ->
  LoadX509KeyPair w (tlsCertFile s) (tlsKeyFile s) = (c1, Some e) ->
  certDeadline (step s w) = certDeadline s
  /\ cert (step s w) = cert s
  /\ deref (step s w) (cert (step s w)) = Some c1.
Proof.
  intros Hcert Hpast Hload. unfold step.
  rewrite (GetCertificate_failed s w c1 e Hpast Hload). simpl.
  now rewrite Hcert.
Qed.

(** C1, evaluated.  The pair [certA] is cached at second 5 (deadline 6).
    At second 7 the files are invalid: the invocation returns the error and
    leaves the deadline and the pointer as they were, but the certificate
    that the cached pointer refers to is now the zero certificate, not
    [certA].  Once the files hold [certB], the next invocation at second 7
    succeeds and hands out [certB]. *)
Theorem failed_reload_clears_cached_certificate :
  let s1 := step cacheA (worldAt 5 (loaderWith certA)) in
  let s2 := step s1 (worldAt 7 loaderBroken) in
  (GetCertificate (worldAt 7 loaderBroken) s1).1.1
  = (nil,
     Some (ErrLoadTLSCert "server.crt" "server.key"
             (ErrExternal "tls: failed to find any PEM data in certificate input")))
  /\ certDeadline s1 = 6 /\ certDeadline s2 = 6
  /\ cert s1 = addr_c /\ cert s2 = addr_c
  /\ deref s1 (cert s1) = Some certA
  /\ deref s2 (cert s2) = Some tls.zero
  /\ (GetCertificate (worldAt 7 (loaderWith certB)) s2).1.1 = (addr_c, None)
  /\ deref (step s2 (worldAt 7 (loaderWith certB))) addr_c = Some certB.
Proof. vm_compute. repeat split; reflexivity. Qed.

(** After the failed reload of the scenario above, an invocation whose
    clock reading is not past the deadline (the wall clock was set back to
    second 6) hands out the zero certificate without an error. *)
Example zero_certificate_served_after_failed_reload :
  serve (step cacheA (worldAt 5 (loaderWith certA)))
        [worldAt 7 loaderBroken; worldAt 6 (loaderWith certB)]
  = [((nil,
       Some (ErrLoadTLSCert "server.crt" "server.key"
               (ErrExternal "tls: failed to find any PEM data in certificate input"))),
      None);
     ((addr_c, None), Some tls.zero)].
Proof. vm_compute. reflexivity. Qed.

(** C2, evaluated.  The pointer handed out at second 5 refers to [certA]
    when it is handed out.  The reload at second 7 returns the same pointer
    and makes it refer to [certB]; the failed reload at second 9 makes it
    refer to the zero certificate.  The certificate obtained at second 5 was
    modified by both later reloads. *)
Theorem reload_modifies_certificate_handed_out_earlier :
  let w5 := worldAt 5 (loaderWith certA) in
  let w7 := worldAt 7 (loaderWith certB) in
  let w9 := worldAt 9 loaderBroken in
  let p := (GetCertificate w5 cacheA).1.1.1 in
  let s1 := step cacheA w5 in
  let s2 := step s1 w7 in
  let s3 := step s2 w9 in
  p = addr_c
  /\ deref s1 p = Some certA
  /\ (GetCertificate w7 s1).1.1 = (p, None)
  /\ deref s2 p = Some certB
  /\ (GetCertificate w9 s2).2 = [CallLoadX509KeyPair "server.crt" "server.key"]
  /\ deref s3 p = Some tls.zero.
Proof. vm_compute. repeat split; reflexivity. Qed.

(** * Further properties of the resolver *)

Section ResolverComposition.

Variable ToLower : string -> string.
Variable supportedCipherSuites : list tls.CipherSuite.

Abbreviation suitesMap := (supportedCipherSuitesMap ToLower supportedCipherSuites).
Abbreviation resolve := (collectCipherSuites ToLower supportedCipherSuites).
Abbreviation recognised' := (recognised ToLower supportedCipherSuites).
Abbreviation identifies' := (identifies ToLower supportedCipherSuites).

(** The loop started with a slice [acc] appends to it what the loop started
    with the nil slice returns; the error, and nil beside it, are the same. *)
Lemma collectLoop_acc (m : gmap string Z) names : forall acc,
  collectLoop ToLower m acc names
  = match collectLoop ToLower m [] names with
    | (ids, None) => ((acc ++ ids)%list, None)
    | (_, Some e) => ([], Some e)
    end.
Proof.
  induction names as [|name names IH]; intros acc; simpl.
  - now rewrite app_nil_r.
  - destruct (m !! ToLower name) as [id|]; [| reflexivity].
    rewrite (IH (acc ++ [id])%list), (IH [id]).
    destruct (collectLoop ToLower m [] names) as [ids [e|]]; [reflexivity |].
    now rewrite <- app_assoc.
Qed.

Lemma collectLoop_app (m : gmap string Z) l1 l2 : forall acc,
  collectLoop ToLower m acc (l1 ++ l2)
  = match collectLoop ToLower m acc l1 with
    | (acc1, None) => collectLoop ToLower m acc1 l2
    | (x, Some e) => (x, Some e)
    end.
Proof.
  induction l1 as [|name l1 IH]; intros acc; simpl; [reflexivity |].
  destruct (m !! ToLower name) as [id|]; [apply IH | reflexivity].
Qed.

(** What a run of the loop without error returned. *)
Lemma collectLoop_ok_inv (m : gmap string Z) names : forall acc ids,
  collectLoop ToLower m acc names = (ids, None) ->
  exists found,
    ids = (acc ++ found)%list
    /\ Forall2 (fun name id => m !! ToLower name = Some id) names found.
Proof.
  induction names as [|name names IH]; intros acc ids H; simpl in H.
  - injection H as <-. exists []. split; [now rewrite app_nil_r | constructor].
  - destruct (m !! ToLower name) as [id|] eqn:E; [| discriminate].
    destruct (IH _ _ H) as (found & -> & Hall).
    exists (id :: found). split; [now rewrite <- app_assoc | now constructor].
Qed.

(** What a run of the loop with an error went through. *)
Lemma collectLoop_err_inv (m : gmap string Z) names : forall acc x e,
  collectLoop ToLower m acc names = (x, Some e) ->
  x = [] /\ exists bad, bad ∈ names /\ m !! ToLower bad = None
                        /\ e = ErrUnsupportedCipherSuite bad.
Proof.
  induction names as [|name names IH]; intros acc x e H; simpl in H; [discriminate |].
  destruct (m !! ToLower name) as [id|] eqn:E.
  - destruct (IH _ _ _ H) as (-> & bad & Hin & Hbad & ->).
    split; [reflexivity |]. exists bad. split; [now apply list_elem_of_further | easy].
  - injection H as <- <-. split; [reflexivity |].
    exists name. split; [apply list_elem_of_here | easy].
Qed.

Lemma resolve_ok_identifies names ids :
  resolve names = (ids, None) -> Forall2 identifies' names ids.
Proof.
  intros H. apply collectLoop_ok_inv in H as (found & -> & Hall). simpl.
  eapply Forall2_impl; [exact Hall |]. intros name id. apply suitesMap_Some.
Qed.

(** X1. The resolver returns no error exactly when every requested name is
    recognised by the platform. *)
Theorem collectCipherSuites_succeeds_iff (names : list string) :
  (collectCipherSuites ToLower supportedCipherSuites names).2 = None
  <-> Forall (recognised ToLower supportedCipherSuites) names.
Proof.
  split.
  - destruct (resolve names) as [ids [e|]] eqn:E; [discriminate | intros _].
    apply resolve_ok_identifies in E.
    induction E as [|name id names ids (scf & Hin & Hname & _) _ IH]; constructor;
      [now exists scf | exact IH].
  - intros Hall.
    destruct (collectLoop_found ToLower suitesMap names []) as (ids & Hrun & _).
    + eapply Forall_impl; [exact Hall |]. intros name. apply recognised_lookup.
    + unfold collectCipherSuites. now rewrite Hrun.
Qed.

(** X2. Resolving a concatenation: when both parts resolve, the result is
    the concatenation of their results; else the error is that of the first
    part that fails, with nil beside it. *)
Theorem collectCipherSuites_app (l1 l2 : list string) :
  collectCipherSuites ToLower supportedCipherSuites (l1 ++ l2)
  = match collectCipherSuites ToLower supportedCipherSuites l1,
          collectCipherSuites ToLower supportedCipherSuites l2 with
    | (ids1, None), (ids2, None) => ((ids1 ++ ids2)%list, None)
    | (_, None), (_, Some e) => ([], Some e)
    | (_, Some e), _ => ([], Some e)
    end.
Proof.
  unfold collectCipherSuites. rewrite collectLoop_app.
  destruct (collectLoop ToLower suitesMap [] l1) as [ids1 [e|]] eqn:E1.
  - now destruct (collectLoop_err_inv _ _ _ _ _ E1) as [-> _].
  - rewrite collectLoop_acc.
    now destruct (collectLoop ToLower suitesMap [] l2) as [ids2 [e|]].
Qed.

Lemma collectLoop_same_lower (m : gmap string Z) l1 l2 :
  Forall2 (fun a b => ToLower a = ToLower b) l1 l2 ->
  forall acc,
    (collectLoop ToLower m acc l1).1 = (collectLoop ToLower m acc l2).1
    /\ ((collectLoop ToLower m acc l1).2 = None
        <-> (collectLoop ToLower m acc l2).2 = None).
Proof.
  induction 1 as [|a b l1 l2 Hab _ IH]; intros acc; simpl; [easy |].
  rewrite Hab. destruct (m !! ToLower b) as [id|]; [apply IH | easy].
Qed.

(** X3. The letter case of the request does not matter: two requests whose
    names agree position by position once lower-cased get the same
    identifiers, and one fails exactly when the other does. *)
Theorem collectCipherSuites_case_insensitive (l1 l2 : list string)
  (Hsame : Forall2 (fun a b => ToLower a = ToLower b) l1 l2) :
  (collectCipherSuites ToLower supportedCipherSuites l1).1
  = (collectCipherSuites ToLower supportedCipherSuites l2).1
  /\ ((collectCipherSuites ToLower supportedCipherSuites l1).2 = None
      <-> (collectCipherSuites ToLower supportedCipherSuites l2).2 = None).
Proof.
  unfold collectCipherSuites.
  apply collectLoop_same_lower.
  exact Hsame.
Qed.

(** Suites whose lower-cased name is not [k] leave the entry of [k] alone. *)
Lemma fill_lookup_other (suites : list tls.CipherSuite) (m0 : gmap string Z) k :
  (forall scf, scf ∈ suites -> ToLower (tls.Name scf) <> k) ->
  foldl (fun m scf => <[ToLower (tls.Name scf) := tls.ID scf]> m) m0 suites !! k
  = m0 !! k.
Proof.
  revert m0. induction suites as [|scf suites IH]; intros m0 Hall; simpl; [reflexivity |].
  rewrite IH.
  - apply lookup_insert_ne, Hall, list_elem_of_here.
  - intros scf' Hin. apply Hall. now apply list_elem_of_further.
Qed.

End ResolverComposition.

(** X4. When several suites of the platform's table have the same
    lower-cased name, the last of them wins: a name matching a suite that no
    later suite of the table matches resolves to the identifier of that
    suite, whatever stands before it in the table. *)
Theorem collectCipherSuites_last_suite_wins (ToLower : string -> string)
  (before after : list tls.CipherSuite) (scf : tls.CipherSuite) (name : string)
  (Hname : ToLower name = ToLower (tls.Name scf))
  (Hlast : forall scf', scf' ∈ after ->
                        ToLower (tls.Name scf') <> ToLower (tls.Name scf)) :
  collectCipherSuites ToLower (before ++ scf :: after) [name]
  = ([tls.ID scf], None).
Proof.
  unfold collectCipherSuites, supportedCipherSuitesMap. simpl.
  rewrite foldl_app. simpl. rewrite Hname.
  rewrite (fill_lookup_other ToLower after _ _ Hlast).
  now rewrite lookup_insert_eq.
Qed.

(** * Further properties of the certificate cache *)

Section CacheRuns.

Implicit Types (s : Cache) (w : World) (ws : list World).

(** An invocation returns a pointer or an error, never both and never
    neither, and it calls the loader at most once, with the captured file
    names. *)
Lemma GetCertificate_shape s w :
  cert s = addr_c ->
  ((GetCertificate w s).1.1 = (addr_c, None)
   \/ exists e,
        (GetCertificate w s).1.1
        = (nil, Some (ErrLoadTLSCert (tlsCertFile s) (tlsKeyFile s) e)))
  /\ cert (step s w) = addr_c
  /\ ((GetCertificate w s).2 = []
      \/ (GetCertificate w s).2
         = [CallLoadX509KeyPair (tlsCertFile s) (tlsKeyFile s)]).
Proof.
  intros Hcert. unfold step, GetCertificate.
  destruct (certDeadline s <? now w).
  - destruct (LoadX509KeyPair w _ _) as [c1 [e|]]; simpl; eauto 6.
  - simpl. rewrite Hcert. eauto.
Qed.

Lemma serve_shape ws : forall s,
  cert s = addr_c ->
  Forall (fun r =>
            (r.1 = (addr_c, None) /\ is_Some r.2)
            \/ (exists e,
                   r.1 = (nil, Some (ErrLoadTLSCert (tlsCertFile s) (tlsKeyFile s) e))
                   /\ r.2 = None))
         (serve s ws).
Proof.
  induction ws as [|w ws IH]; intros s Hcert; simpl; constructor.
  - destruct (GetCertificate_shape s w Hcert) as ([Hr | [e Hr]] & _ & _);
      rewrite Hr; simpl; [left | right]; eauto.
  - destruct (GetCertificate_shape s w Hcert) as (_ & Hcert' & _).
    destruct (step_files s w) as [<- <-]. now apply IH.
Qed.

Lemma callsOf_loads ws : forall s,
  cert s = addr_c ->
  Forall (fun ev => ev = CallLoadX509KeyPair (tlsCertFile s) (tlsKeyFile s))
         (callsOf s ws)
  /\ (length (callsOf s ws) <= length ws)%nat.
Proof.
  induction ws as [|w ws IH]; intros s Hcert; simpl; [split; [constructor | lia] |].
  destruct (GetCertificate_shape s w Hcert) as (_ & Hcert' & Hcalls).
  destruct (IH (step s w) Hcert') as [Hall Hlen].
  destruct (step_files s w) as [Hf Hk]. rewrite Hf, Hk in Hall.
  destruct Hcalls as [-> | ->]; simpl; split;
    [exact Hall | lia | now constructor | lia].
Qed.

(** Invocations whose clock reading is not past the deadline change
    nothing and call nothing. *)
Lemma run_fresh ws : forall s,
  Forall (fun w => now w <= certDeadline s) ws ->
  run s ws = s /\ callsOf s ws = []
  /\ Forall (fun r => r = ((cert s, None), deref s (cert s))) (serve s ws).
Proof.
  induction ws as [|w ws IH]; intros s Hall; simpl; [easy |].
  apply Forall_cons in Hall as [Hw Hall].
  fold (run (step s w) ws). unfold step.
  rewrite (GetCertificate_fresh s w Hw). simpl.
  destruct (IH s Hall) as (Hrun & Hcalls & Hserve).
  split; [exact Hrun |]. split; [exact Hcalls |]. now constructor.
Qed.

(** X7. After an invocation has reloaded the pair at clock reading [t],
    every invocation up to and including second [t + 1] hands out that pair
    without calling the loader, whatever the files hold by then; the first
    invocation at second [t + 2] or later calls the loader again. *)
Theorem GetCertificate_cache_window (s : Cache) (w : World)
  (c1 : tls.Certificate) (ws : list World)
  (Hpast : certDeadline s < now w)
  (Hload : LoadX509KeyPair w (tlsCertFile s) (tlsKeyFile s) = (c1, None))
  (Ht : timestamp (now' w))
  (Hwindow : Forall (fun w' => now w' <= now' w + 1) ws) :
  callsOf (step s w) ws = []
  /\ Forall (fun r => r = ((addr_c, None), Some c1)) (serve (step s w) ws)
  /\ run (step s w) ws = step s w
  /\ (forall w', now' w + 2 <= now w' ->
                 (GetCertificate w' (run (step s w) ws)).2
                 = [CallLoadX509KeyPair (tlsCertFile s) (tlsKeyFile s)]).
Proof.
  assert (Hstep : step s w
                  = mkCache (tlsCertFile s) (tlsKeyFile s) (now' w + 1) c1 None addr_c).
  { unfold step. rewrite (GetCertificate_reloaded s w c1 Hpast Hload). simpl.
    now rewrite uint64_add_timestamp. }
  destruct (run_fresh ws (step s w)) as (Hrun & Hcalls & Hserve).
  { now rewrite Hstep. }
  split; [exact Hcalls |]. split; [now rewrite Hstep in Hserve |- * |].
  split; [exact Hrun |].
  intros w' Hlate. rewrite Hrun, Hstep. unfold GetCertificate. simpl.
  destruct (now' w + 1 <? now w') eqn:E; [| apply Z.ltb_ge in E; lia].
  now destruct (LoadX509KeyPair w' _ _) as [c2 [e|]].
Qed.

(** X8. A failed reload is not remembered: the deadline stays where it
    was, so the next invocation whose clock reading is not before that of
    the failed one calls the loader again, and hands out the pair when the
    files are valid again. *)
Theorem GetCertificate_retries_after_failure (s : Cache) (w w' : World)
  (c1 : tls.Certificate) (e : error)
  (Hpast : certDeadline s < now w)
  (Hfail : LoadX509KeyPair w (tlsCertFile s) (tlsKeyFile s) = (c1, Some e))
  (Hclock : now w <= now w') :
  (GetCertificate w' (step s w)).2
  = [CallLoadX509KeyPair (tlsCertFile s) (tlsKeyFile s)]
  /\ (forall c2,
         LoadX509KeyPair w' (tlsCertFile s) (tlsKeyFile s) = (c2, None) ->
         (GetCertificate w' (step s w)).1.1 = (addr_c, None)
         /\ deref (step (step s w) w') addr_c = Some c2).
Proof.
  assert (Hstep : step s w
                  = mkCache (tlsCertFile s) (tlsKeyFile s) (certDeadline s) c1
                            (Some e) (cert s)).
  { unfold step. now rewrite (GetCertificate_failed s w c1 e Hpast Hfail). }
  assert (Hlt : (certDeadline s <? now w') = true) by (apply Z.ltb_lt; lia).
  rewrite Hstep. split.
  - unfold GetCertificate. simpl. rewrite Hlt.
    now destruct (LoadX509KeyPair w' _ _) as [c2 [e2|]].
  - intros c2 Hok. unfold step, GetCertificate. simpl. now rewrite Hlt, Hok.
Qed.

(** With a clock that is never set back, what is handed out without error
    satisfies any property [P] that holds of the pair cached at the start
    and of every pair that a load succeeding during the run returns. *)
Lemma serve_loaded (P : tls.Certificate -> Prop) (certFile keyFile : string) ws :
  forall s since,
    cert s = addr_c -> tlsCertFile s = certFile -> tlsKeyFile s = keyFile ->
    (forall w c1, w ∈ ws -> LoadX509KeyPair w certFile keyFile = (c1, None) -> P c1) ->
    (err s = None /\ P (c s)) \/ certDeadline s < since ->
    clockNeverBack since ws ->
    Forall (fun r => (exists e, r = ((nil, Some e), None))
                     \/ (exists c1, r = ((addr_c, None), Some c1) /\ P c1))
           (serve s ws).
Proof.
  induction ws as [|w ws IH]; intros s since Hcert Hf Hk HP Hinv Hback;
    simpl; constructor; destruct Hback as [Hsince Hclock].
  - unfold GetCertificate. rewrite Hf, Hk.
    destruct (certDeadline s <? now w) eqn:E.
    + destruct (LoadX509KeyPair w certFile keyFile) as [c1 [e|]] eqn:Hl; simpl.
      * left. eauto.
      * right. exists c1. split; [reflexivity |].
        apply (HP w c1); [apply list_elem_of_here | exact Hl].
    + simpl. rewrite Hcert. simpl. right. exists (c s). split; [reflexivity |].
      apply Z.ltb_ge in E. destruct Hinv as [[_ HPc] | Hlt]; [exact HPc | lia].
  - destruct (step_files s w) as [Hf' Hk'].
    apply (IH (step s w) (now w)).
    + unfold step, GetCertificate. destruct (certDeadline s <? now w); [| exact Hcert].
      now destruct (LoadX509KeyPair w _ _) as [c1 [e|]].
    + congruence.
    + congruence.
    + intros w0 c1 Hin. apply HP. now apply list_elem_of_further.
    + unfold step, GetCertificate. rewrite Hf, Hk.
      destruct (certDeadline s <? now w) eqn:E.
      * destruct (LoadX509KeyPair w certFile keyFile) as [c1 [e|]] eqn:Hl; simpl.
        -- right. now apply Z.ltb_lt in E.
        -- left. split; [reflexivity |].
           apply (HP w c1); [apply list_elem_of_here | exact Hl].
      * simpl. apply Z.ltb_ge in E.
        destruct Hinv as [Hgood | Hlt]; [now left | lia].
    + exact Hclock.
Qed.

(** With a clock that is never set back, an invocation that calls no
    loader hands out the pair of the last reload, and that reload read the
    clock at most one second before.  [last] is the last reload before the
    sequence, if there was one. *)
Lemma serve_cached_last_reload ws : forall s last since w,
  cert s = addr_c ->
  (forall t c1, last = Some (t, c1) ->
                timestamp t /\ certDeadline s = t + 1
                /\ (c s = c1 \/ certDeadline s < since)) ->
  (last = None -> certDeadline s = 0) ->
  Forall (fun w' => timestamp (now' w')) ws ->
  clockNeverBack since (ws ++ [w]) ->
  0 < now w ->
  (GetCertificate w (run s ws)).2 = [] ->
  exists t c1,
    lastReload last s ws = Some (t, c1)
    /\ now w <= t + 1
    /\ (GetCertificate w (run s ws)).1.1 = (addr_c, None)
    /\ deref (step (run s ws) w) addr_c = Some c1.
Proof.
  induction ws as [|w0 ws IH]; intros s last since w Hcert Hsome Hnone Hts Hback Hnow Hcached.
  - simpl in *. destruct Hback as [Hsince _].
    assert (Hle : now w <= certDeadline s).
    { unfold GetCertificate in Hcached.
      destruct (certDeadline s <? now w) eqn:E; [| now apply Z.ltb_ge in E].
      now destruct (LoadX509KeyPair w _ _) as [c1 [e|]]. }
    destruct last as [[t c1]|]; [| specialize (Hnone eq_refl); lia].
    destruct (Hsome t c1 eq_refl) as (_ & Hd & Hc).
    exists t, c1. unfold step. rewrite (GetCertificate_fresh s w Hle). simpl.
    rewrite Hcert. repeat split; [lia |].
    destruct Hc as [-> | Hlt]; [reflexivity | lia].
  - simpl in Hback. destruct Hback as [Hsince Hback].
    apply Forall_cons in Hts as [Ht0 Hts].
    simpl. fold (run (step s w0) ws).
    simpl in Hcached. fold (run (step s w0) ws) in Hcached.
    apply (IH (step s w0) _ (now w0) w); try assumption.
    + now destruct (GetCertificate_shape s w0 Hcert) as (_ & H & _).
    + intros t c1. unfold reloads, step, GetCertificate.
      destruct (certDeadline s <? now w0) eqn:E; simpl.
      * destruct (LoadX509KeyPair w0 _ _) as [c2 [e|]]; simpl.
        -- intros Hlast. destruct (Hsome t c1 Hlast) as (Ht & Hd & _).
           apply Z.ltb_lt in E. repeat split; try apply Ht; [exact Hd | now right].
        -- intros [= <- <-]. rewrite uint64_add_timestamp by exact Ht0.
           repeat split; try apply Ht0. now left.
      * intros Hlast. destruct (Hsome t c1 Hlast) as (Ht & Hd & Hc).
        apply Z.ltb_ge in E. repeat split; try apply Ht; [exact Hd |].
        left. destruct Hc as [Hc | Hlt]; [exact Hc | lia].
    + unfold reloads, step, GetCertificate.
      destruct (certDeadline s <? now w0) eqn:E; simpl; [| exact Hnone].
      destruct (LoadX509KeyPair w0 _ _) as [c2 [e|]]; simpl; [exact Hnone | discriminate].
Qed.

End CacheRuns.

(** * Further properties of the builder and of the configurations it returns *)

Section BuiltConfigurations.

Variable ToLower : string -> string.
Variable supportedCipherSuites : list tls.CipherSuite.
Variable certificatesOfPEM : string -> list string.

Abbreviation build :=
  (GetServerTLSConfig ToLower supportedCipherSuites certificatesOfPEM).
Abbreviation resolve := (collectCipherSuites ToLower supportedCipherSuites).

(** X5. The closure of a returned configuration never returns a nil
    pointer with a nil error: each invocation of any sequence returns the
    pointer to a certificate and no error, or no pointer and the load error
    holding the two paths given to the builder. *)
Theorem GetCertificate_pointer_or_error (w0 : World)
  (tlsCAFile certFile keyFile : string) (suites : list string)
  (cfg : Config) (calls : list event) (ws : list World)
  (Hbuild : build w0 tlsCAFile certFile keyFile suites = (Some cfg, None, calls)) :
  Forall (fun r =>
            (r.1 = (addr_c, None) /\ is_Some r.2)
            \/ (exists e,
                   r.1 = (nil, Some (ErrLoadTLSCert certFile keyFile e))
                   /\ r.2 = None))
         (serve (GetCertificate_closure cfg) ws).
Proof.
  destruct (build_returned _ _ _ _ _ _ _ _ _ _ Hbuild)
    as (c0 & ids & _ & _ & _ & _ & _ & Hclosure).
  rewrite Hclosure.
  exact (serve_shape ws (mkCache certFile keyFile 0 c0 None addr_c) eq_refl).
Qed.

(** X6. After the build the only files ever read are the certificate and
    the key given to the builder: every call made by any sequence of
    invocations is a load of that pair, there is at most one per
    invocation, and the CA source is never read again. *)
Theorem GetCertificate_only_loads_the_pair (w0 : World)
  (tlsCAFile certFile keyFile : string) (suites : list string)
  (cfg : Config) (calls : list event) (ws : list World)
  (Hbuild : build w0 tlsCAFile certFile keyFile suites = (Some cfg, None, calls)) :
  Forall (fun ev => ev = CallLoadX509KeyPair certFile keyFile)
         (callsOf (GetCertificate_closure cfg) ws)
  /\ (length (callsOf (GetCertificate_closure cfg) ws) <= length ws)%nat.
Proof.
  destruct (build_returned _ _ _ _ _ _ _ _ _ _ Hbuild)
    as (c0 & ids & _ & _ & _ & _ & _ & Hclosure).
  rewrite Hclosure.
  exact (callsOf_loads ws (mkCache certFile keyFile 0 c0 None addr_c) eq_refl).
Qed.

(** X9. With a clock that is never set back, every certificate that the
    closure of a returned configuration hands out without error is a pair
    that a successful load returned: the one loaded by the builder or one
    loaded by an invocation of the sequence.  What a failed load left in the
    cache is never handed out. *)
Theorem GetCertificate_hands_out_loaded_pairs (w0 : World)
  (tlsCAFile certFile keyFile : string) (suites : list string)
  (cfg : Config) (calls : list event) (since : Z) (ws : list World)
  (Hbuild : build w0 tlsCAFile certFile keyFile suites = (Some cfg, None, calls))
  (Hclock : clockNeverBack since ws) :
  Forall (fun r =>
            (exists e, r = ((nil, Some e), None))
            \/ (exists c1,
                   r = ((addr_c, None), Some c1)
                   /\ (LoadX509KeyPair w0 certFile keyFile = (c1, None)
                       \/ exists w, w ∈ ws
                                    /\ LoadX509KeyPair w certFile keyFile = (c1, None))))
         (serve (GetCertificate_closure cfg) ws).
Proof.
  destruct (build_returned _ _ _ _ _ _ _ _ _ _ Hbuild)
    as (c0 & ids & Hload & _ & _ & _ & _ & Hclosure).
  rewrite Hclosure.
  apply (serve_loaded
           (fun c1 => LoadX509KeyPair w0 certFile keyFile = (c1, None)
                      \/ exists w, w ∈ ws
                                   /\ LoadX509KeyPair w certFile keyFile = (c1, None))
           certFile keyFile ws _ since); try reflexivity.
  - intros w c1 Hin Hl. right. now exists w.
  - left. split; [reflexivity | left; exact Hload].
  - exact Hclock.
Qed.

(** X10. With clock readings that are seconds since the epoch and a clock
    that is never set back, the closure of a returned configuration serves
    from its cache only what was loaded at most one second earlier: when an
    invocation at a reading [n] above zero calls no loader, some earlier
    invocation reloaded the pair, the last one that did read the clock at
    [n - 1] or later, and the invocation hands out the pair which that
    reload read. *)
Theorem GetCertificate_cached_pair_at_most_one_second_old (w0 : World)
  (tlsCAFile certFile keyFile : string) (suites : list string)
  (cfg : Config) (calls : list event) (since : Z) (ws : list World) (w : World)
  (Hbuild : build w0 tlsCAFile certFile keyFile suites = (Some cfg, None, calls))
  (Hclock : Forall (fun w' => timestamp (now' w')) ws)
  (Hback : clockNeverBack since (ws ++ [w]))
  (Hnow : 0 < now w)
  (Hcached : (GetCertificate w (run (GetCertificate_closure cfg) ws)).2 = []) :
  exists t c1,
    lastReload None (GetCertificate_closure cfg) ws = Some (t, c1)
    /\ now w <= t + 1
    /\ (GetCertificate w (run (GetCertificate_closure cfg) ws)).1.1 = (addr_c, None)
    /\ deref (step (run (GetCertificate_closure cfg) ws) w) addr_c = Some c1.
Proof.
  destruct (build_returned _ _ _ _ _ _ _ _ _ _ Hbuild)
    as (c0 & ids & _ & _ & _ & _ & _ & Hclosure).
  rewrite Hclosure in Hcached |- *.
  apply (serve_cached_last_reload ws _ None since w); try easy.
Qed.

(** X11. The builder reads the CA source at most once, after the load of
    the pair, and only when the pair loaded, the suites resolved and the CA
    path is not empty; in that case it reads it whatever the outcome. *)
Theorem GetServerTLSConfig_calls (w : World)
  (tlsCAFile certFile keyFile : string) (suites : list string) :
  ((LoadX509KeyPair w certFile keyFile).2 = None
   /\ (resolve suites).2 = None /\ tlsCAFile <> "" ->
   (build w tlsCAFile certFile keyFile suites).2
   = [CallLoadX509KeyPair certFile keyFile; CallReadFileOrHTTP tlsCAFile])
  /\ (~ ((LoadX509KeyPair w certFile keyFile).2 = None
         /\ (resolve suites).2 = None /\ tlsCAFile <> "") ->
      (build w tlsCAFile certFile keyFile suites).2
      = [CallLoadX509KeyPair certFile keyFile]).
Proof.
  destruct (LoadX509KeyPair w certFile keyFile) as [c0 [e0|]] eqn:Hl.
  { rewrite (build_load_failed _ _ _ _ _ _ _ _ _ _ Hl). simpl.
    split; [now intros [? _] | reflexivity]. }
  destruct (resolve suites) as [ids [e1|]] eqn:Hr.
  { rewrite (build_resolve_failed _ _ _ _ _ _ _ _ _ _ _ Hl Hr). simpl.
    split; [now intros (_ & ? & _) | reflexivity]. }
  rewrite (build_loaded _ _ _ _ _ _ _ _ _ _ Hl Hr). simpl.
  destruct (decide (tlsCAFile = "")) as [-> | Hne].
  - rewrite withClientCAs_disabled. simpl. split; [now intros (_ & _ & ?) | reflexivity].
  - rewrite (withClientCAs_enabled _ _ _ _ Hne). split; [intros _ | intros H; tauto].
    destruct (ReadFileOrHTTP w tlsCAFile) as [caPEM [e|]]; [reflexivity |].
    now destruct (certificatesOfPEM caPEM).
Qed.

(** X12. The cipher suites of a returned configuration are the request
    resolved: one identifier per requested name, in the order of the
    request, each that of a platform suite with the same lower-cased name;
    for the empty request the field is nil. *)
Theorem GetServerTLSConfig_cipher_suites (w : World)
  (tlsCAFile certFile keyFile : string) (suites : list string)
  (cfg : Config) (calls : list event)
  (Hbuild : build w tlsCAFile certFile keyFile suites = (Some cfg, None, calls)) :
  Forall2 (identifies ToLower supportedCipherSuites) suites (CipherSuites cfg)
  /\ (suites = [] -> CipherSuites cfg = []).
Proof.
  destruct (build_returned _ _ _ _ _ _ _ _ _ _ Hbuild)
    as (c0 & ids & _ & Hres & _ & _ & <- & _).
  split.
  - now apply resolve_ok_identifies.
  - intros ->. now injection Hres as <-.
Qed.

End BuiltConfigurations.

(** * The sample platform: further evaluations *)

Lemma collectCipherSuites_case_insensitive_witness :
  (collectCipherSuites toLowerASCII sampleCipherSuites
     ["tls_aes_128_gcm_sha256"; "TLS_CHACHA20_POLY1305_SHA256"]).1
  = (collectCipherSuites toLowerASCII sampleCipherSuites
       ["TLS_AES_128_GCM_SHA256"; "Tls_Chacha20_Poly1305_Sha256"]).1
  /\ ((collectCipherSuites toLowerASCII sampleCipherSuites
         ["tls_aes_128_gcm_sha256"; "TLS_CHACHA20_POLY1305_SHA256"]).2 = None
      <-> (collectCipherSuites toLowerASCII sampleCipherSuites
             ["TLS_AES_128_GCM_SHA256"; "Tls_Chacha20_Poly1305_Sha256"]).2 = None).
Proof.
  apply (collectCipherSuites_case_insensitive toLowerASCII sampleCipherSuites).
  repeat constructor.
Defined.

Lemma collectCipherSuites_last_suite_wins_witness :
  collectCipherSuites toLowerASCII shadowedCipherSuites ["tls_twice"] = ([3], None).
Proof.
  refine (collectCipherSuites_last_suite_wins toLowerASCII
            [tls.mkCipherSuite "TLS_FIRST" 1; tls.mkCipherSuite "Tls_Twice" 2]
            [tls.mkCipherSuite "TLS_LAST" 4]
            (tls.mkCipherSuite "TLS_TWICE" 3) "tls_twice" eq_refl _).
  intros scf' Hin. apply list_elem_of_singleton in Hin. subst scf'.
  vm_compute. discriminate.
Defined.

Lemma GetCertificate_pointer_or_error_witness :
  Forall (fun r =>
            (r.1 = (addr_c, None) /\ is_Some r.2)
            \/ (exists e,
                   r.1 = (nil, Some (ErrLoadTLSCert "server.crt" "server.key" e))
                   /\ r.2 = None))
         (serve cacheA [worldAt 5 (loaderWith certA); worldAt 7 loaderBroken]).
Proof.
  exact (GetCertificate_pointer_or_error
           toLowerASCII sampleCipherSuites samplePEM
           (worldAt 1 (loaderWith certA)) "" "server.crt" "server.key"
           ["TLS_AES_128_GCM_SHA256"]
           (mkConfig tls.VersionTLS12 true cacheA [4865] tls.NoClientCert None)
           [CallLoadX509KeyPair "server.crt" "server.key"]
           [worldAt 5 (loaderWith certA); worldAt 7 loaderBroken]
           GetServerTLSConfig_sample).
Defined.

Lemma GetCertificate_only_loads_the_pair_witness :
  Forall (fun ev => ev = CallLoadX509KeyPair "server.crt" "server.key")
         (callsOf cacheA [worldAt 5 (loaderWith certA); worldAt 5 (loaderWith certB);
                          worldAt 7 loaderBroken])
  /\ (length (callsOf cacheA [worldAt 5 (loaderWith certA);
                              worldAt 5 (loaderWith certB);
                              worldAt 7 loaderBroken]) <= 3)%nat.
Proof.
  exact (GetCertificate_only_loads_the_pair
           toLowerASCII sampleCipherSuites samplePEM
           (worldAt 1 (loaderWith certA)) "ca.pem" "server.crt" "server.key" []
           (mkConfig tls.VersionTLS12 true cacheA []
                     tls.RequireAndVerifyClientCert
                     (Some ["ca-root"; "ca-intermediate"]))
           [CallLoadX509KeyPair "server.crt" "server.key"; CallReadFileOrHTTP "ca.pem"]
           [worldAt 5 (loaderWith certA); worldAt 5 (loaderWith certB);
            worldAt 7 loaderBroken]
           GetServerTLSConfig_sample_mTLS).
Defined.

Lemma GetCertificate_cache_window_witness :
  callsOf (step cacheA (worldAt 5 (loaderWith certA)))
          [worldAt 5 (loaderWith certB); worldAt 6 loaderBroken] = []
  /\ Forall (fun r => r = ((addr_c, None), Some certA))
            (serve (step cacheA (worldAt 5 (loaderWith certA)))
                   [worldAt 5 (loaderWith certB); worldAt 6 loaderBroken])
  /\ run (step cacheA (worldAt 5 (loaderWith certA)))
         [worldAt 5 (loaderWith certB); worldAt 6 loaderBroken]
     = step cacheA (worldAt 5 (loaderWith certA))
  /\ (forall w', 5 + 2 <= now w' ->
                 (GetCertificate w'
                    (run (step cacheA (worldAt 5 (loaderWith certA)))
                         [worldAt 5 (loaderWith certB); worldAt 6 loaderBroken])).2
                 = [CallLoadX509KeyPair "server.crt" "server.key"]).
Proof.
  apply (GetCertificate_cache_window
           cacheA (worldAt 5 (loaderWith certA)) certA
           [worldAt 5 (loaderWith certB); worldAt 6 loaderBroken]).
  - simpl. lia.
  - reflexivity.
  - unfold timestamp. simpl. lia.
  - repeat constructor; simpl; lia.
Defined.

Lemma GetCertificate_retries_after_failure_witness :
  (GetCertificate (worldAt 7 (loaderWith certB))
     (step (step cacheA (worldAt 5 (loaderWith certA))) (worldAt 7 loaderBroken))).2
  = [CallLoadX509KeyPair "server.crt" "server.key"].
Proof.
  refine (proj1
    (GetCertificate_retries_after_failure
       (step cacheA (worldAt 5 (loaderWith certA)))
       (worldAt 7 loaderBroken) (worldAt 7 (loaderWith certB))
       tls.zero
       (ErrExternal "tls: failed to find any PEM data in certificate input")
       _ _ _)).
  - vm_compute. reflexivity.
  - reflexivity.
  - simpl. lia.
Defined.

Lemma GetCertificate_hands_out_loaded_pairs_witness :
  Forall (fun r =>
            (exists e, r = ((nil, Some e), None))
            \/ (exists c1,
                   r = ((addr_c, None), Some c1)
                   /\ (LoadX509KeyPair (worldAt 1 (loaderWith certA))
                         "server.crt" "server.key" = (c1, None)
                       \/ exists w,
                            w ∈ [worldAt 5 (loaderWith certA); worldAt 7 loaderBroken;
                                 worldAt 7 (loaderWith certB)]
                            /\ LoadX509KeyPair w "server.crt" "server.key" = (c1, None))))
         (serve cacheA [worldAt 5 (loaderWith certA); worldAt 7 loaderBroken;
                        worldAt 7 (loaderWith certB)]).
Proof.
  refine (GetCertificate_hands_out_loaded_pairs
            toLowerASCII sampleCipherSuites samplePEM
            (worldAt 1 (loaderWith certA)) "" "server.crt" "server.key"
            ["TLS_AES_128_GCM_SHA256"]
            (mkConfig tls.VersionTLS12 true cacheA [4865] tls.NoClientCert None)
            [CallLoadX509KeyPair "server.crt" "server.key"] 0
            [worldAt 5 (loaderWith certA); worldAt 7 loaderBroken;
             worldAt 7 (loaderWith certB)]
            GetServerTLSConfig_sample _).
  simpl. lia.
Defined.

Lemma GetCertificate_cached_pair_at_most_one_second_old_witness :
  exists t c1,
    lastReload None cacheA
      [worldAt 5 (loaderWith certA); worldAt 7 loaderBroken;
       worldAt 8 (loaderWith certB)]
    = Some (t, c1)
    /\ 9 <= t + 1
    /\ (GetCertificate (worldAt 9 (loaderWith certA))
          (run cacheA [worldAt 5 (loaderWith certA); worldAt 7 loaderBroken;
                       worldAt 8 (loaderWith certB)])).1.1
       = (addr_c, None)
    /\ deref (step (run cacheA [worldAt 5 (loaderWith certA); worldAt 7 loaderBroken;
                                worldAt 8 (loaderWith certB)])
                   (worldAt 9 (loaderWith certA))) addr_c
       = Some c1.
Proof.
  refine (GetCertificate_cached_pair_at_most_one_second_old
            toLowerASCII sampleCipherSuites samplePEM
            (worldAt 1 (loaderWith certA)) "" "server.crt" "server.key"
            ["TLS_AES_128_GCM_SHA256"]
            (mkConfig tls.VersionTLS12 true cacheA [4865] tls.NoClientCert None)
            [CallLoadX509KeyPair "server.crt" "server.key"] 0
            [worldAt 5 (loaderWith certA); worldAt 7 loaderBroken;
             worldAt 8 (loaderWith certB)]
            (worldAt 9 (loaderWith certA))
            GetServerTLSConfig_sample _ _ _ _).
  - repeat constructor; unfold timestamp; simpl; lia.
  - simpl. lia.
  - simpl. lia.
  - vm_compute. reflexivity.
Defined.

Lemma GetServerTLSConfig_cipher_suites_witness :
  Forall2 (identifies toLowerASCII sampleCipherSuites)
          ["TLS_AES_128_GCM_SHA256"] [4865]
  /\ (["TLS_AES_128_GCM_SHA256"] = [] -> [4865] = []).
Proof.
  exact (GetServerTLSConfig_cipher_suites
           toLowerASCII sampleCipherSuites samplePEM
           (worldAt 1 (loaderWith certA)) "" "server.crt" "server.key"
           ["TLS_AES_128_GCM_SHA256"]
           (mkConfig tls.VersionTLS12 true cacheA [4865] tls.NoClientCert None)
           [CallLoadX509KeyPair "server.crt" "server.key"]
           GetServerTLSConfig_sample).
Defined.

(** C3 without the condition that the first invocation handed out a
    certificate.  A pair is cached with deadline 6 and the files are invalid
    at second 7: the invocation at second 7 returns the error and leaves the
    deadline where it was, so a second invocation within second 7 calls the
    loader again, and with the files valid by then it returns a pointer
    where the first returned none. *)
Lemma same_second_after_failed_reload_reads_again :
  now (worldAt 7 loaderBroken) = 7
  /\ now' (worldAt 7 loaderBroken) = 7
  /\ now (worldAt 7 (loaderWith certB)) = 7
  /\ (GetCertificate (worldAt 7 loaderBroken)
        (step cacheA (worldAt 5 (loaderWith certA)))).1.1
     = (nil,
        Some (ErrLoadTLSCert "server.crt" "server.key"
                (ErrExternal "tls: failed to find any PEM data in certificate input")))
  /\ (GetCertificate (worldAt 7 (loaderWith certB))
        (step (step cacheA (worldAt 5 (loaderWith certA)))
              (worldAt 7 loaderBroken))).1.1
     = (addr_c, None)
  /\ (GetCertificate (worldAt 7 (loaderWith certB))
        (step (step cacheA (worldAt 5 (loaderWith certA)))
              (worldAt 7 loaderBroken))).2
     = [CallLoadX509KeyPair "server.crt" "server.key"].
Proof. vm_compute. repeat split; reflexivity. Qed.
